(** * DotBot backend: the optional memory and payment services

    A shallow embedding of [backend/services/memory_service.py] and
    [backend/services/payment_service.py].

    Both classes hold one attribute, [self.initialized], guard their
    data-bearing coroutines with it and otherwise return fixed values.
    None of the coroutines contains an [await], so a call that is awaited
    runs from its first statement to its [return] or [raise] without
    interleaving; it is modelled as one function from the object's state
    to an outcome, the new state and the records handed to the module
    logger. *)

From Stdlib Require Import String Ascii List ZArith NArith Bool Lia.
From Stdlib Require Import DecimalString DecimalNat DecimalFacts Permutation.
Import ListNotations.

Set Warnings "-register-all".

Local Open Scope string_scope.

(** ** Calls: state, exceptions and the logger *)

Module Eff.

(** The exceptions that come out of the services.  [RuntimeError] is what
    the guards raise.  [ValueError] and [RecursionError] (in Python a
    subclass of [RuntimeError], here a class of its own) are raised by
    the built-in [str] on a payload.  [ReprRaised cls msg] is an
    exception of class [cls] raised inside the [__repr__] of an object
    of the payload; it is kept apart from the other three, as its
    traceback keeps it apart. *)
Inductive exception : Type :=
| RuntimeError (msg : string)
| ValueError (msg : string)
| RecursionError (msg : string)
| ReprRaised (cls msg : string).

Inductive outcome (A : Type) : Type :=
| Return (a : A)
| Raise (e : exception).
Arguments Return {A} a.
Arguments Raise {A} e.

(** A list built item by item, left to right; the first exception ends
    it. *)
Fixpoint traverse {A B} (f : A -> outcome B) (l : list A) : outcome (list B) :=
  match l with
  | [] => Return []
  | x :: l' =>
      match f x with
      | Raise e => Raise e
      | Return y =>
          match traverse f l' with
          | Raise e => Raise e
          | Return ys => Return (y :: ys)
          end
      end
  end.

(** What [logger.info] hands to the logging module. *)
Inductive LogRecord : Type :=
| INFO (msg : string).

(** An awaited call on an object whose attributes are [S]: its outcome,
    the attributes afterwards, the records logged on the way. *)
Definition M (S A : Type) : Type := S -> outcome A * S * list LogRecord.

Definition ret {S A} (a : A) : M S A := fun s => (Return a, s, []).

Definition raise {S A} (e : exception) : M S A := fun s => (Raise e, s, []).

Definition bind {S A B} (m : M S A) (k : A -> M S B) : M S B :=
  fun s =>
    match m s with
    | (Return a, s1, l1) => let '(r, s2, l2) := k a s1 in (r, s2, (l1 ++ l2)%list)
    | (Raise e, s1, l1) => (Raise e, s1, l1)
    end.

(** An expression that touches neither the object nor the logger and may
    raise. *)
Definition eval {S A} (o : outcome A) : M S A := fun s => (o, s, []).

(** Reading and assigning [self]'s attributes. *)
Definition gets {S A} (f : S -> A) : M S A := fun s => (Return (f s), s, []).
Definition put {S} (s' : S) : M S unit := fun _ => (Return tt, s', []).

Definition logger_info {S} (msg : string) : M S unit :=
  fun s => (Return tt, s, [INFO msg]).

Definition fmap {S A B} (f : A -> B) (m : M S A) : M S B :=
  bind m (fun a => ret (f a)).

Definition result {S A} (r : outcome A * S * list LogRecord) : outcome A := fst (fst r).
Definition final {S A} (r : outcome A * S * list LogRecord) : S := snd (fst r).
Definition logged {S A} (r : outcome A * S * list LogRecord) : list LogRecord := snd r.

(** The object after a chronological series of calls, each awaited before
    the next and its exception, if any, caught by the caller. *)
Definition run_calls {S C A} (invoke : C -> M S A) (calls : list C) (s : S) : S :=
  fold_left (fun s c => final (invoke c s)) calls s.

(** How many calls of the series change the value of the attribute [flag]. *)
Fixpoint changes {S C A} (invoke : C -> M S A) (flag : S -> bool)
    (calls : list C) (s : S) : nat :=
  match calls with
  | [] => 0
  | c :: calls' =>
      let s' := final (invoke c s) in
      (if Bool.eqb (flag s') (flag s) then 0 else 1) + changes invoke flag calls' s'
  end.

Declare Scope eff_scope.
Delimit Scope eff_scope with eff.
Notation "x <- m ;; k" := (bind m (fun x => k))
  (at level 61, m at next level, right associativity) : eff_scope.
Notation "m ;; k" := (bind m (fun _ => k))
  (at level 61, right associativity) : eff_scope.

End Eff.

Import Eff.

(** ** Python values *)

Module Py.

(** The values a [Dict[str, Any]] payload is built from.  A [str] is a
    [string] with one [ascii] per code point, so code points stay below
    256.  An object of any other class (a float, a datetime, ...) is
    given by what its [__repr__] does, which is all the services ever
    ask of a payload: [PyObj r] returns the text [r], [PyBadObj cls msg]
    raises an exception of class [cls]. *)
Inductive PyVal : Type :=
| PyNone
| PyBool (b : bool)
| PyInt (n : Z)
| PyStr (s : string)
| PyList (xs : list PyVal)
| PyDict (items : list (string * PyVal))
| PyObj (r : string)
| PyBadObj (cls msg : string).

(** [Dict[str, Any]], in insertion order. *)
Definition Dict : Type := list (string * PyVal).

(** [d[key]], [None] standing for [KeyError]. *)
Fixpoint getitem (d : Dict) (key : string) : option PyVal :=
  match d with
  | [] => None
  | (k, v) :: d' => if String.eqb k key then Some v else getitem d' key
  end.

(** [len] of a [str]. *)
Definition len (s : string) : nat := String.length s.

(** The decimal text of an [int]. *)
Definition str_int (n : Z) : string := NilZero.string_of_int (Z.to_int n).

(** [f"{n}"] for the result of [len]: never negative, and far below the
    limit on digits. *)
Definition str_nat (n : nat) : string := NilZero.string_of_uint (Nat.to_uint n).

(** *** The interpreter's limits (CPython 3.11 defaults) *)

(** [sys.get_int_max_str_digits()] *)
Definition int_max_str_digits : nat := 4300.

(** [sys.getrecursionlimit()] *)
Definition recursion_limit : nat := 1000.

(** The levels of the recursion limit in use when [repr] starts on the
    payload: the frame of the coroutine, one frame of its caller and the
    call of [str] itself.  A caller deeper on the stack leaves fewer
    levels than the model does. *)
Definition levels_in_use : nat := 3.

(** The digits of [n], sign apart. *)
Definition digits (n : Z) : nat := len (str_int (Z.abs n)).

(** [repr] of an [int], refused beyond the limit on digits. *)
Definition repr_int (n : Z) : outcome string :=
  if (int_max_str_digits <? digits n)%nat
  then
    Raise (ValueError
      "Exceeds the limit (4300 digits) for integer string conversion; use sys.set_int_max_str_digits() to increase the limit")
  else Return (str_int n).

(** *** [repr] of a [str] *)

Definition hexdigit (n : N) : ascii :=
  match String.get (N.to_nat n) "0123456789abcdef" with
  | Some c => c
  | None => "0"%char
  end.

(** [\xhh] *)
Definition hex_escape (n : N) : string :=
  String "\" (String "x" (String (hexdigit (n / 16)) (String (hexdigit (n mod 16)) ""))).

(** [str.isprintable] on the code points from 128 to 255: all of them
    but the C1 controls, the no-break space and the soft hyphen. *)
Definition isprintable_latin1 (n : N) : bool :=
  ((161 <=? n) && negb (n =? 173))%N.

Definition squote : ascii := ascii_of_nat 39.
Definition dquote : ascii := ascii_of_nat 34.

Fixpoint contains (q : ascii) (s : string) : bool :=
  match s with
  | EmptyString => false
  | String c s' => Ascii.eqb c q || contains q s'
  end.

(** Single quotes, unless the text has a single quote and no double one. *)
Definition repr_quote (s : string) : ascii :=
  if contains squote s && negb (contains dquote s) then dquote else squote.

Definition repr_char (quote c : ascii) : string :=
  let n := N_of_ascii c in
  if Ascii.eqb c quote || Ascii.eqb c "\" then String "\" (String c "")
  else if (n =? 9)%N then "\t"
  else if (n =? 10)%N then "\n"
  else if (n =? 13)%N then "\r"
  else if ((n <? 32) || (n =? 127))%N then hex_escape n
  else if (n <? 127)%N then String c ""
  else if isprintable_latin1 n then String c ""
  else hex_escape n.

Fixpoint repr_chars (quote : ascii) (s : string) : string :=
  match s with
  | EmptyString => ""
  | String c s' => repr_char quote c ++ repr_chars quote s'
  end.

Definition repr_str (s : string) : string :=
  let q := repr_quote s in
  String q (repr_chars q s ++ String q "").

(** *** [repr] of a value *)

(** [", ".join(parts)] *)
Fixpoint join_comma (parts : list string) : string :=
  match parts with
  | [] => ""
  | [p] => p
  | p :: ps => p ++ ", " ++ join_comma ps
  end.

(** The [key: value] text of one item of a [dict], [repr_value] being
    [repr] for the values. *)
Definition repr_item (repr_value : PyVal -> outcome string)
    (kv : string * PyVal) : outcome string :=
  match repr_value (snd kv) with
  | Return r => Return (repr_str (fst kv) ++ ": " ++ r)
  | Raise e => Raise e
  end.

(** [repr] with [depth] levels of the recursion limit left: each value
    takes one level while its text is built, a container's items one
    more. *)
Fixpoint repr (depth : nat) (v : PyVal) : outcome string :=
  match depth with
  | 0 =>
      Raise (RecursionError
        "maximum recursion depth exceeded while getting the repr of an object")
  | S depth' =>
      match v with
      | PyNone => Return "None"
      | PyBool true => Return "True"
      | PyBool false => Return "False"
      | PyInt n => repr_int n
      | PyStr s => Return (repr_str s)
      | PyList xs =>
          match traverse (repr depth') xs with
          | Return parts => Return ("[" ++ join_comma parts ++ "]")
          | Raise e => Raise e
          end
      | PyDict items =>
          match traverse (repr_item (repr depth')) items with
          | Return parts => Return ("{" ++ join_comma parts ++ "}")
          | Raise e => Raise e
          end
      | PyObj r => Return r
      | PyBadObj cls msg => Raise (ReprRaised cls msg)
      end
  end.

(** The levels left for the items of the payload, which itself takes one
    of the [recursion_limit - levels_in_use] that [repr] starts with. *)
Definition item_levels : nat := recursion_limit - levels_in_use - 1.

(** [str(d)] for a [dict] is its [repr]: a text, or the exception that
    ends it. *)
Definition str (d : Dict) : outcome string :=
  repr (S item_levels) (PyDict d).



End Py.

Import Py.
Local Open Scope eff_scope.

(** ** memory_service.py *)

Module MemoryService.

Record state : Type := { initialized : bool }.

Definition __init__ : state := {| initialized := false |}.

Definition initialize : M state unit :=
  put {| initialized := true |} ;;
  logger_info "Memory service initialized (placeholder)".

Definition save_conversation (conversation_data : Dict) : M state string :=
  ready <- gets initialized ;;
  if negb ready then raise (RuntimeError "Memory service not initialized")
  else
    text <- eval (str conversation_data) ;;
    let conversation_id := "conv_" ++ str_nat (len text) in
    logger_info ("Saved conversation " ++ conversation_id) ;;
    ret conversation_id.

Definition get_conversations (user_id : string) (limit : Z) : M state (list Dict) :=
  ready <- gets initialized ;;
  if negb ready then raise (RuntimeError "Memory service not initialized")
  else ret [].

Definition save_preferences (user_id : string) (preferences : Dict) : M state unit :=
  ready <- gets initialized ;;
  if negb ready then raise (RuntimeError "Memory service not initialized")
  else logger_info ("Saved preferences for user " ++ user_id).

Definition get_status : M state Dict :=
  available <- gets initialized ;;
  ret [ ("available", PyBool available);
        ("type", PyStr "placeholder");
        ("storage_backend", PyStr "none") ].

(** [limit: int = 50] *)
Definition default_limit : Z := 50.

(** The calls a client can make on the object, and what each hands back
    as a Python value. *)
Inductive call : Type :=
| Initialize
| SaveConversation (conversation_data : Dict)
| GetConversations (user_id : string) (limit : Z)
| SavePreferences (user_id : string) (preferences : Dict)
| GetStatus.

Definition invoke (c : call) : M state PyVal :=
  match c with
  | Initialize => fmap (fun _ => PyNone) initialize
  | SaveConversation d => fmap PyStr (save_conversation d)
  | GetConversations u l => fmap (fun cs => PyList (map PyDict cs)) (get_conversations u l)
  | SavePreferences u p => fmap (fun _ => PyNone) (save_preferences u p)
  | GetStatus => fmap PyDict get_status
  end.

(** The coroutines that take or hand back data and start with the guard. *)
Definition data_bearing (c : call) : bool :=
  match c with
  | SaveConversation _ | GetConversations _ _ | SavePreferences _ _ => true
  | Initialize | GetStatus => false
  end.

End MemoryService.

(** ** payment_service.py *)

Module PaymentService.

Record state : Type := { initialized : bool }.

Definition __init__ : state := {| initialized := false |}.

Definition initialize : M state unit :=
  put {| initialized := true |} ;;
  logger_info "Payment service initialized (placeholder)".

Definition process_payment (payment_data : Dict) : M state Dict :=
  ready <- gets initialized ;;
  if negb ready then raise (RuntimeError "Payment service not initialized")
  else
    ret [ ("success", PyBool true);
          ("transaction_id", PyStr "txn_placeholder");
          ("message", PyStr "Payment processed (placeholder)") ].

Definition get_usage_stats (user_id : string) : M state Dict :=
  ready <- gets initialized ;;
  if negb ready then raise (RuntimeError "Payment service not initialized")
  else
    ret [ ("usage", PyStr "unlimited");
          ("tier", PyStr "free");
          ("requests_made", PyInt 0);
          ("requests_remaining", PyStr "unlimited") ].

Definition get_status : M state Dict :=
  available <- gets initialized ;;
  ret [ ("available", PyBool available);
        ("type", PyStr "placeholder");
        ("payment_backend", PyStr "none") ].

Inductive call : Type :=
| Initialize
| ProcessPayment (payment_data : Dict)
| GetUsageStats (user_id : string)
| GetStatus.

Definition invoke (c : call) : M state PyVal :=
  match c with
  | Initialize => fmap (fun _ => PyNone) initialize
  | ProcessPayment d => fmap PyDict (process_payment d)
  | GetUsageStats u => fmap PyDict (get_usage_stats u)
  | GetStatus => fmap PyDict get_status
  end.

Definition data_bearing (c : call) : bool :=
  match c with
  | ProcessPayment _ | GetUsageStats _ => true
  | Initialize | GetStatus => false
  end.

End PaymentService.

(** ** The two services side by side *)

Module Service.

Inductive service : Type := Memory | Payment.

Definition state (S : service) : Type :=
  match S with
  | Memory => MemoryService.state
  | Payment => PaymentService.state
  end.

Definition call (S : service) : Type :=
  match S with
  | Memory => MemoryService.call
  | Payment => PaymentService.call
  end.

Definition __init__ (S : service) : state S :=
  match S with
  | Memory => MemoryService.__init__
  | Payment => PaymentService.__init__
  end.

Definition initialized (S : service) : state S -> bool :=
  match S with
  | Memory => MemoryService.initialized
  | Payment => PaymentService.initialized
  end.

Definition invoke (S : service) : call S -> M (state S) PyVal :=
  match S with
  | Memory => MemoryService.invoke
  | Payment => PaymentService.invoke
  end.

Definition initialize (S : service) : M (state S) unit :=
  match S with
  | Memory => MemoryService.initialize
  | Payment => PaymentService.initialize
  end.

Definition get_status (S : service) : M (state S) Dict :=
  match S with
  | Memory => MemoryService.get_status
  | Payment => PaymentService.get_status
  end.

Definition Initialize (S : service) : call S :=
  match S with
  | Memory => MemoryService.Initialize
  | Payment => PaymentService.Initialize
  end.

Definition data_bearing (S : service) : call S -> bool :=
  match S with
  | Memory => MemoryService.data_bearing
  | Payment => PaymentService.data_bearing
  end.

(** The exception of the guard: the spec's NotInitialized. *)
Definition NotInitialized (S : service) : exception :=
  match S with
  | Memory => RuntimeError "Memory service not initialized"
  | Payment => RuntimeError "Payment service not initialized"
  end.

(** The third key of the status report. *)
Definition backend_key (S : service) : string :=
  match S with
  | Memory => "storage_backend"
  | Payment => "payment_backend"
  end.

(** The object after [calls], made in this order on a new object. *)
Definition after (S : service) (calls : list (call S)) : state S :=
  run_calls (invoke S) calls (__init__ S).

End Service.

(** ** What a series of calls logs *)

Module Trace.
Import Service.

(** The records a chronological series of calls hands to the logger. *)
Fixpoint run_log {S C A} (invoke : C -> M S A) (calls : list C) (s : S)
    : list LogRecord :=
  match calls with
  | [] => []
  | c :: calls' =>
      (logged (invoke c s) ++ run_log invoke calls' (final (invoke c s)))%list
  end.

Definition is_initialize (S : service) : call S -> bool :=
  match S with
  | Memory => fun c =>
      match c with MemoryService.Initialize => true | _ => false end
  | Payment => fun c =>
      match c with PaymentService.Initialize => true | _ => false end
  end.

(** The message of [logger.info] in [initialize]. *)
Definition initialized_line (S : service) : string :=
  match S with
  | Memory => "Memory service initialized (placeholder)"
  | Payment => "Payment service initialized (placeholder)"
  end.

Definition has_message (msg : string) (r : LogRecord) : bool :=
  match r with
  | INFO m => String.eqb m msg
  end.

(** Whether the built-in calls a coroutine makes on its arguments
    return: [save_conversation] takes the [str] of its payload, the
    others call nothing that can raise. *)
Definition arguments_accepted (S : service) : call S -> bool :=
  match S with
  | Memory => fun c =>
      match c with
      | MemoryService.SaveConversation d =>
          match str d with Return _ => true | Raise _ => false end
      | _ => true
      end
  | Payment => fun _ => true
  end.

End Trace.

(** * Properties *)

(** ** Sample runs *)

Example str_a1 : str [("a", PyInt 1)] = Return "{'a': 1}".
Proof. reflexivity. Qed.

Example str_nested :
  str [("user", PyStr "it's"); ("tags", PyList [PyNone; PyBool true; PyInt (-12)])]
  = Return ("{'user': " ++ String dquote ("it's" ++ String dquote ", 'tags': [None, True, -12]}")).
Proof. reflexivity. Qed.

Example repr_str_escapes :
  repr_str (String (ascii_of_nat 10) (String (ascii_of_nat 27) "\")) = "'\n\x1b\\'".
Proof. reflexivity. Qed.

Example repr_str_quotes :
  repr_str (String "a" (String dquote (String "b" (String squote "c"))))
  = String squote (String "a" (String dquote (String "b" (String "\" (String squote (String "c" (String squote "")))))))
  /\ repr 3 (PyList [PyStr ""; PyDict []; PyList []; PyObj "1.5"]) = Return "['', {}, [], 1.5]".
Proof. split; reflexivity. Qed.

Example str_first_exception_wins :
  str [("a", PyInt 1); ("b", PyBadObj "KeyError" "'boom'"); ("c", PyBadObj "OSError" "late")]
  = Raise (ReprRaised "KeyError" "'boom'").
Proof. reflexivity. Qed.

Example repr_out_of_levels :
  repr 2 (PyList [PyList [PyNone]])
  = Raise (RecursionError
             "maximum recursion depth exceeded while getting the repr of an object")
  /\ repr 3 (PyList [PyList [PyNone]]) = Return "[[None]]".
Proof. split; reflexivity. Qed.

Example repr_int_at_the_limit :
  (exists t, repr_int (10 ^ 4299) = Return t /\ len t = 4300)
  /\ (exists t, repr_int (- 10 ^ 4299) = Return t /\ len t = 4301)
  /\ repr_int (10 ^ 4300)
     = Raise (ValueError
         "Exceeds the limit (4300 digits) for integer string conversion; use sys.set_int_max_str_digits() to increase the limit").
Proof.
  split; [| split].
  - eexists. split; vm_compute; reflexivity.
  - eexists. split; vm_compute; reflexivity.
  - vm_compute. reflexivity.
Qed.

Example save_a1 :
  MemoryService.save_conversation [("a", PyInt 1)] {| MemoryService.initialized := true |}
  = (Return "conv_8", {| MemoryService.initialized := true |}, [INFO "Saved conversation conv_8"]).
Proof. reflexivity. Qed.

Example save_before_initialize :
  MemoryService.save_conversation [("a", PyInt 1)] MemoryService.__init__
  = (Raise (RuntimeError "Memory service not initialized"), MemoryService.__init__, []).
Proof. reflexivity. Qed.

Example payment_session :
  let s := Service.after Service.Payment
             [PaymentService.GetStatus; PaymentService.Initialize; PaymentService.GetUsageStats "u1"] in
  PaymentService.initialized s = true
  /\ result (PaymentService.process_payment [] s)
     = Return [ ("success", PyBool true);
                ("transaction_id", PyStr "txn_placeholder");
                ("message", PyStr "Payment processed (placeholder)") ].
Proof. split; reflexivity. Qed.

(** ** Strings *)


(** ** The flag along a series of calls *)

Section Lifecycle.

Variables (St Call : Type).
Variable invoke : Call -> M St PyVal.
Variable flag : St -> bool.
Variable init : Call.

Hypothesis init_sets : forall s, flag (final (invoke init s)) = true.
Hypothesis flag_kept :
  forall c s, flag s = true -> flag (final (invoke c s)) = true.
Hypothesis others_frame :
  forall c s, c <> init -> flag (final (invoke c s)) = flag s.

Lemma run_calls_cons c calls s :
  run_calls invoke (c :: calls) s = run_calls invoke calls (final (invoke c s)).
Proof. reflexivity. Qed.

Lemma run_calls_keeps calls :
  forall s, flag s = true -> flag (run_calls invoke calls s) = true.
Proof.
  induction calls as [| c calls IH]; intros s Hs.
  - exact Hs.
  - rewrite run_calls_cons. apply IH, flag_kept, Hs.
Qed.

Lemma run_calls_with_init calls :
  forall s, In init calls -> flag (run_calls invoke calls s) = true.
Proof.
  induction calls as [| c calls IH]; intros s Hin.
  - destruct Hin.
  - rewrite run_calls_cons. destruct Hin as [-> | Hin].
    + apply run_calls_keeps, init_sets.
    + apply IH, Hin.
Qed.

Lemma run_calls_without_init calls :
  forall s, ~ In init calls -> flag (run_calls invoke calls s) = flag s.
Proof.
  induction calls as [| c calls IH]; intros s Hnot.
  - reflexivity.
  - rewrite run_calls_cons, IH.
    + apply others_frame. intros ->. apply Hnot. left. reflexivity.
    + intros Hin. apply Hnot. right. exact Hin.
Qed.

Lemma changes_none_once_set calls :
  forall s, flag s = true -> changes invoke flag calls s = 0.
Proof.
  induction calls as [| c calls IH]; intros s Hs; simpl.
  - reflexivity.
  - rewrite (flag_kept c s Hs), Hs, (IH _ (flag_kept c s Hs)). reflexivity.
Qed.

Lemma changes_at_most_once calls :
  forall s, changes invoke flag calls s <= 1.
Proof.
  induction calls as [| c calls IH]; intros s; simpl.
  - lia.
  - destruct (flag s) eqn:Hs.
    + rewrite (flag_kept c s Hs). simpl.
      rewrite (changes_none_once_set calls _ (flag_kept c s Hs)). lia.
    + destruct (flag (final (invoke c s))) eqn:Hs'; simpl.
      * rewrite (changes_none_once_set calls _ Hs'). lia.
      * apply IH.
Qed.

End Lifecycle.

(** ** Facts on each class *)

Module MemoryFacts.
Import MemoryService.

Lemma memory_state_eta (s : state) : s = {| initialized := initialized s |}.
Proof. destruct s. reflexivity. Qed.

Lemma memory_state_ext (s s' : state) : initialized s = initialized s' -> s = s'.
Proof. destruct s, s'. simpl. intros ->. reflexivity. Qed.

Lemma memory_ready_state (s : state) : initialized s = true -> s = {| initialized := true |}.
Proof. intros H. rewrite (memory_state_eta s), H. reflexivity. Qed.

Lemma memory_new_state (s : state) : initialized s = false -> s = __init__.
Proof. intros H. rewrite (memory_state_eta s), H. reflexivity. Qed.

Lemma memory_initialize_run s :
  initialize s
  = (Return tt, {| initialized := true |}, [INFO "Memory service initialized (placeholder)"]).
Proof. reflexivity. Qed.

(** The three ways out of [save_conversation]: the guard, the exception
    of [str], the identifier. *)
Lemma memory_save_conversation_run d s :
  save_conversation d s
  = if initialized s
    then match str d with
         | Return text =>
             (Return ("conv_" ++ str_nat (len text)), s,
              [INFO ("Saved conversation " ++ "conv_" ++ str_nat (len text))])
         | Raise e => (Raise e, s, [])
         end
    else (Raise (RuntimeError "Memory service not initialized"), s, []).
Proof.
  destruct s as [[|]]; [| reflexivity].
  unfold save_conversation, bind, gets, eval. cbn [initialized negb].
  destruct (str d); reflexivity.
Qed.

Lemma memory_invoke_save d s :
  invoke (SaveConversation d) s
  = if initialized s
    then match str d with
         | Return text =>
             (Return (PyStr ("conv_" ++ str_nat (len text))), s,
              [INFO ("Saved conversation " ++ "conv_" ++ str_nat (len text))])
         | Raise e => (Raise e, s, [])
         end
    else (Raise (RuntimeError "Memory service not initialized"), s, []).
Proof.
  unfold invoke, fmap, bind. rewrite memory_save_conversation_run.
  destruct (initialized s); [| reflexivity].
  destruct (str d); reflexivity.
Qed.

Lemma memory_invoke_initialize s : initialized (final (invoke Initialize s)) = true.
Proof. reflexivity. Qed.

Lemma memory_invoke_frame c s : c <> Initialize -> final (invoke c s) = s.
Proof.
  intros Hc. destruct c; try (now destruct Hc);
    try (destruct s as [[|]]; reflexivity).
  rewrite memory_invoke_save.
  destruct (initialized s); [destruct (str conversation_data) |]; reflexivity.
Qed.

Lemma memory_invoke_kept c s :
  initialized s = true -> initialized (final (invoke c s)) = true.
Proof.
  intros H. destruct c; try (destruct s as [[|]]; [reflexivity | discriminate H]).
  rewrite (memory_invoke_frame (SaveConversation conversation_data) s); [exact H | discriminate].
Qed.

Lemma memory_invoke_guard c s :
  data_bearing c = true -> initialized s = false ->
  invoke c s = (Raise (RuntimeError "Memory service not initialized"), s, []).
Proof.
  intros Hc Hs. rewrite (memory_new_state s Hs).
  destruct c; try discriminate Hc; reflexivity.
Qed.

(** Whatever a call raises is the guard's exception, on an object that
    is not ready, or the exception of [str] on the payload of
    [save_conversation], on one that is. *)
Lemma memory_invoke_raise c s e :
  result (invoke c s) = Raise e ->
  (e = RuntimeError "Memory service not initialized"
   /\ data_bearing c = true /\ initialized s = false)
  \/ (exists d, c = SaveConversation d /\ initialized s = true /\ str d = Raise e).
Proof.
  destruct c.
  - intros H. discriminate H.
  - rewrite memory_invoke_save. destruct (initialized s).
    + destruct (str conversation_data) eqn:Hstr; intros H; [discriminate H |].
      injection H as <-. right. exists conversation_data. repeat split. exact Hstr.
    + intros H. injection H as <-. left. repeat split.
  - destruct s as [[|]]; intros H; [discriminate H |].
    injection H as <-. left. repeat split.
  - destruct s as [[|]]; intros H; [discriminate H |].
    injection H as <-. left. repeat split.
  - intros H. discriminate H.
Qed.

(** A call that raises has changed nothing and logged nothing. *)
Lemma memory_invoke_raise_frame c s e :
  result (invoke c s) = Raise e -> invoke c s = (Raise e, s, []).
Proof.
  destruct c.
  - intros H. discriminate H.
  - rewrite memory_invoke_save. destruct (initialized s).
    + destruct (str conversation_data); intros H; [discriminate H |].
      injection H as <-. reflexivity.
    + intros H. injection H as <-. reflexivity.
  - destruct s as [[|]]; intros H; [discriminate H |]. injection H as <-. reflexivity.
  - destruct s as [[|]]; intros H; [discriminate H |]. injection H as <-. reflexivity.
  - intros H. discriminate H.
Qed.

End MemoryFacts.

Module PaymentFacts.
Import PaymentService.

Lemma payment_state_eta (s : state) : s = {| initialized := initialized s |}.
Proof. destruct s. reflexivity. Qed.

Lemma payment_state_ext (s s' : state) : initialized s = initialized s' -> s = s'.
Proof. destruct s, s'. simpl. intros ->. reflexivity. Qed.

Lemma payment_ready_state (s : state) : initialized s = true -> s = {| initialized := true |}.
Proof. intros H. rewrite (payment_state_eta s), H. reflexivity. Qed.

Lemma payment_new_state (s : state) : initialized s = false -> s = __init__.
Proof. intros H. rewrite (payment_state_eta s), H. reflexivity. Qed.

Lemma payment_initialize_run s :
  initialize s
  = (Return tt, {| initialized := true |}, [INFO "Payment service initialized (placeholder)"]).
Proof. reflexivity. Qed.

Lemma payment_invoke_initialize s : initialized (final (invoke Initialize s)) = true.
Proof. reflexivity. Qed.

Lemma payment_invoke_frame c s : c <> Initialize -> final (invoke c s) = s.
Proof.
  destruct s as [[|]]; destruct c; intros Hc; try reflexivity; now destruct Hc.
Qed.

Lemma payment_invoke_kept c s :
  initialized s = true -> initialized (final (invoke c s)) = true.
Proof. destruct s as [[|]]; destruct c; intros H; try reflexivity; discriminate H. Qed.

Lemma payment_invoke_guard c s :
  data_bearing c = true -> initialized s = false ->
  invoke c s = (Raise (RuntimeError "Payment service not initialized"), s, []).
Proof.
  intros Hc Hs. rewrite (payment_new_state s Hs).
  destruct c; try discriminate Hc; reflexivity.
Qed.

Lemma payment_invoke_raise c s e :
  result (invoke c s) = Raise e ->
  e = RuntimeError "Payment service not initialized"
  /\ data_bearing c = true /\ initialized s = false.
Proof.
  destruct s as [[|]]; destruct c; cbn; intros H; try discriminate H;
    injection H as <-; repeat split.
Qed.

End PaymentFacts.


(** ** Facts on [str] *)

Module PyFacts.

Lemma traverse_raise {A B} (f : A -> outcome B) (l : list A) (e : exception) :
  traverse f l = Raise e -> exists x, In x l /\ f x = Raise e.
Proof.
  induction l as [| x l IH]; simpl.
  - intros H. discriminate H.
  - destruct (f x) as [y | e'] eqn:Hx.
    + destruct (traverse f l) as [ys | e'']; intros H; [discriminate H |].
      injection H as ->. destruct (IH eq_refl) as (x' & Hin & Hx').
      exists x'. split; [right; exact Hin | exact Hx'].
    + intros H. injection H as ->. exists x. split; [left; reflexivity | exact Hx].
Qed.


Lemma traverse_cons_return {A B} (f : A -> outcome B) x l parts :
  traverse f (x :: l) = Return parts ->
  exists y ys, f x = Return y /\ traverse f l = Return ys /\ parts = y :: ys.
Proof.
  simpl. destruct (f x) as [y | e]; [| intros H; discriminate H].
  destruct (traverse f l) as [ys | e]; intros H; [| discriminate H].
  injection H as <-. exists y, ys. repeat split.
Qed.

(** Items taken in another order give the same parts, in that order. *)
Lemma traverse_permutation {A B} (f : A -> outcome B) (l l' : list A) :
  Permutation l l' ->
  forall parts, traverse f l = Return parts ->
  exists parts', traverse f l' = Return parts' /\ Permutation parts parts'.
Proof.
  induction 1 as [| x l l' _ IH | x y l | l l' l'' _ IH1 _ IH2]; intros parts Hparts.
  - exists parts. split; [exact Hparts | apply Permutation_refl].
  - apply traverse_cons_return in Hparts as (y & ys & Hx & Hl & ->).
    destruct (IH ys Hl) as (ys' & Hl' & Hperm).
    exists (y :: ys'). simpl. rewrite Hx, Hl'. split; [reflexivity | now constructor].
  - apply traverse_cons_return in Hparts as (b & ys & Hy & Hl & ->).
    apply traverse_cons_return in Hl as (a & zs & Hx & Hl & ->).
    exists (a :: b :: zs). simpl. rewrite Hx, Hy, Hl.
    split; [reflexivity | apply perm_swap].
  - destruct (IH1 parts Hparts) as (parts' & H' & Hp1).
    destruct (IH2 parts' H') as (parts'' & H'' & Hp2).
    exists parts''. split; [exact H'' | exact (Permutation_trans Hp1 Hp2)].
Qed.

Lemma repr_int_raise n e :
  repr_int n = Raise e -> exists msg, e = ValueError msg.
Proof.
  unfold repr_int. destruct (int_max_str_digits <? digits n)%nat; intros H.
  - injection H as <-. eexists. reflexivity.
  - discriminate H.
Qed.

(** [repr] never raises the exception class of the guards. *)
Lemma repr_never_RuntimeError depth :
  forall v msg, repr depth v <> Raise (RuntimeError msg).
Proof.
  induction depth as [| depth IH]; intros v msg H.
  - discriminate H.
  - destruct v as [| [|] | n | s | xs | items | r | cls m]; simpl in H;
      try discriminate H.
    + apply repr_int_raise in H as [m H]. discriminate H.
    + destruct (traverse (repr depth) xs) as [parts | e] eqn:Hxs; [discriminate H |].
      injection H as ->. apply traverse_raise in Hxs as (x & _ & Hx).
      exact (IH x msg Hx).
    + destruct (traverse (repr_item (repr depth)) items) as [parts | e] eqn:Hit;
        [discriminate H |].
      injection H as ->. apply traverse_raise in Hit as (kv & _ & Hkv).
      unfold repr_item in Hkv.
      destruct (repr depth (snd kv)) as [r | e] eqn:Hv; [discriminate Hkv |].
      injection Hkv as ->. exact (IH (snd kv) msg Hv).
Qed.

Lemma str_never_RuntimeError (d : Dict) (msg : string) :
  str d <> Raise (RuntimeError msg).
Proof. apply repr_never_RuntimeError. Qed.



Lemma len_append (a b : string) : len (a ++ b) = len a + len b.
Proof.
  unfold len. induction a as [| c a IH]; simpl; [reflexivity | now rewrite IH].
Qed.

Lemma len_join_comma (parts : list string) :
  len (join_comma parts) = list_sum (map len parts) + 2 * pred (length parts).
Proof.
  induction parts as [| p [| q parts] IH].
  - reflexivity.
  - simpl. lia.
  - change (join_comma (p :: q :: parts)) with (p ++ ", " ++ join_comma (q :: parts)).
    rewrite !len_append, IH. simpl. lia.
Qed.

(** The text of a [dict]: its items' texts between braces. *)
Lemma repr_dict (depth : nat) (items : Dict) :
  repr (S depth) (PyDict items)
  = match traverse (repr_item (repr depth)) items with
    | Return parts => Return ("{" ++ join_comma parts ++ "}")
    | Raise e => Raise e
    end.
Proof. reflexivity. Qed.

Lemma str_unfold (d : Dict) :
  str d
  = match traverse (repr_item (repr item_levels)) d with
    | Return parts => Return ("{" ++ join_comma parts ++ "}")
    | Raise e => Raise e
    end.
Proof. exact (repr_dict item_levels d). Qed.

Lemma str_return (d : Dict) (text : string) :
  str d = Return text ->
  exists parts,
    traverse (repr_item (repr item_levels)) d = Return parts
    /\ text = "{" ++ join_comma parts ++ "}".
Proof.
  rewrite str_unfold.
  destruct (traverse (repr_item (repr item_levels)) d) as [parts | e]; intros H;
    [| discriminate H].
  injection H as <-. exists parts. split; reflexivity.
Qed.

Lemma str_of_parts (d : Dict) (parts : list string) :
  traverse (repr_item (repr item_levels)) d = Return parts ->
  str d = Return ("{" ++ join_comma parts ++ "}").
Proof. rewrite str_unfold. intros ->. reflexivity. Qed.

Lemma len_braces (parts : list string) :
  len ("{" ++ join_comma parts ++ "}")
  = 2 + list_sum (map len parts) + 2 * pred (length parts).
Proof. rewrite !len_append, len_join_comma. simpl. lia. Qed.

Lemma to_uint_nonnil (n : nat) : Nat.to_uint n <> Decimal.Nil.
Proof.
  rewrite <- (Unsigned.of_to n) at 1. rewrite Unsigned.to_of. apply unorm_nonnil.
Qed.

Lemma str_nat_inj (n m : nat) : str_nat n = str_nat m -> n = m.
Proof.
  unfold str_nat. intros H.
  apply Unsigned.to_uint_inj.
  assert (Hs : Some (Nat.to_uint n) = Some (Nat.to_uint m)).
  { rewrite <- (NilZero.usu _ (to_uint_nonnil n)), <- (NilZero.usu _ (to_uint_nonnil m)).
    now rewrite H. }
  now injection Hs.
Qed.

Lemma conv_id_inj (n m : nat) :
  "conv_" ++ str_nat n = "conv_" ++ str_nat m -> n = m.
Proof. intros H. cbn [append] in H. injection H as H. exact (str_nat_inj n m H). Qed.

End PyFacts.

(** ** Facts on both services *)

Module ServiceFacts.
Import Service.

Lemma state_ext S (s s' : state S) : initialized S s = initialized S s' -> s = s'.
Proof.
  destruct S; [apply MemoryFacts.memory_state_ext | apply PaymentFacts.payment_state_ext].
Qed.

Lemma initialize_run S s :
  result (initialize S s) = Return tt /\ initialized S (final (initialize S s)) = true.
Proof. destruct S; split; reflexivity. Qed.

Lemma invoke_initialize S s : initialized S (final (invoke S (Initialize S) s)) = true.
Proof. destruct S; reflexivity. Qed.

Lemma invoke_frame S c s : c <> Initialize S -> final (invoke S c s) = s.
Proof.
  destruct S; [apply MemoryFacts.memory_invoke_frame | apply PaymentFacts.payment_invoke_frame].
Qed.

Lemma invoke_kept S c s :
  initialized S s = true -> initialized S (final (invoke S c s)) = true.
Proof.
  destruct S; [apply MemoryFacts.memory_invoke_kept | apply PaymentFacts.payment_invoke_kept].
Qed.

Lemma invoke_guard S c s :
  data_bearing S c = true -> initialized S s = false ->
  invoke S c s = (Raise (NotInitialized S), s, []).
Proof.
  destruct S; [apply MemoryFacts.memory_invoke_guard | apply PaymentFacts.payment_invoke_guard].
Qed.

(** A call that raises has changed nothing and logged nothing. *)
Lemma invoke_raise_frame S c s e :
  result (invoke S c s) = Raise e -> invoke S c s = (Raise e, s, []).
Proof.
  destruct S.
  - apply MemoryFacts.memory_invoke_raise_frame.
  - intros H. destruct (PaymentFacts.payment_invoke_raise c s e H) as (-> & Hc & Hs).
    apply (PaymentFacts.payment_invoke_guard c s Hc Hs).
Qed.

(** The guard's exception comes from the guard. *)
Lemma invoke_raise_guard S c s :
  result (invoke S c s) = Raise (NotInitialized S) ->
  data_bearing S c = true /\ initialized S s = false.
Proof.
  destruct S; intros H.
  - destruct (MemoryFacts.memory_invoke_raise c s _ H)
      as [(_ & Hc & Hs) | (d & _ & _ & Hstr)]; [split; assumption |].
    destruct (PyFacts.str_never_RuntimeError d _ Hstr).
  - destruct (PaymentFacts.payment_invoke_raise c s _ H) as (_ & Hc & Hs).
    split; assumption.
Qed.

(** [initialize] was awaited at some point: the object is ready. *)
Lemma after_initialize S calls :
  In (Initialize S) calls -> initialized S (after S calls) = true.
Proof.
  apply run_calls_with_init.
  - apply invoke_initialize.
  - apply invoke_kept.
Qed.

(** [initialize] was never awaited: the object is as [__init__] left it. *)
Lemma after_no_initialize S calls :
  ~ In (Initialize S) calls -> initialized S (after S calls) = false.
Proof.
  intros Hnot. unfold after.
  rewrite (run_calls_without_init _ _ (invoke S) (initialized S) (Initialize S)).
  - destruct S; reflexivity.
  - intros c s Hc. rewrite (invoke_frame S c s Hc). reflexivity.
  - exact Hnot.
Qed.

Lemma after_initialize_memory calls :
  In MemoryService.Initialize calls ->
  after Memory calls = {| MemoryService.initialized := true |}.
Proof.
  intros H. apply MemoryFacts.memory_ready_state, (after_initialize Memory), H.
Qed.

Lemma after_initialize_payment calls :
  In PaymentService.Initialize calls ->
  after Payment calls = {| PaymentService.initialized := true |}.
Proof.
  intros H. apply PaymentFacts.payment_ready_state, (after_initialize Payment), H.
Qed.

End ServiceFacts.

(** * The claims *)

Import Service.

(** ** Error handling *)




(** C10.  A call that raises leaves the object as it found it and has
    logged nothing, so every later call behaves as if the failed one had
    not been made; when what it raises is the "not initialized" error,
    the flag is still false. *)
Theorem failed_call_changes_nothing (S : service) (c : call S) (s : state S) (e : exception) :
  result (invoke S c s) = Raise e ->
  final (invoke S c s) = s
  /\ (e = NotInitialized S -> initialized S (final (invoke S c s)) = false)
  /\ logged (invoke S c s) = []
  /\ forall c', invoke S c' (final (invoke S c s)) = invoke S c' s.
Proof.
  intros H. pose proof (ServiceFacts.invoke_raise_frame S c s e H) as Hrun.
  split; [rewrite Hrun; reflexivity |].
  split.
  - intros ->. destruct (ServiceFacts.invoke_raise_guard S c s H) as [_ Hs].
    rewrite Hrun. exact Hs.
  - rewrite Hrun. split; reflexivity.
Qed.

Lemma failed_call_changes_nothing_witness :
  result (invoke Memory (MemoryService.SavePreferences "u1" []) MemoryService.__init__)
  = Raise (RuntimeError "Memory service not initialized")
  /\ final (invoke Memory (MemoryService.SavePreferences "u1" []) MemoryService.__init__)
     = MemoryService.__init__.
Proof.
  split; [reflexivity |].
  exact (proj1 (failed_call_changes_nothing Memory (MemoryService.SavePreferences "u1" [])
                  MemoryService.__init__ _ eq_refl)).
Defined.

(** ** The memory service once initialized *)




(** C5.  After [initialize] has been awaited on a memory object,
    [get_conversations] returns the empty list whatever [user_id] and
    [limit] are, logs nothing and leaves the object as it was. *)
Theorem get_conversations_is_empty
  (calls : list MemoryService.call) (user_id : string) (limit : Z) :
  In MemoryService.Initialize calls ->
  let s := after Memory calls in
  MemoryService.get_conversations user_id limit s = (Return [], s, []).
Proof.
  intros Hin s. subst s.
  rewrite (ServiceFacts.after_initialize_memory calls Hin). reflexivity.
Qed.

Lemma get_conversations_is_empty_witness :
  In MemoryService.Initialize [MemoryService.Initialize]
  /\ MemoryService.get_conversations "u1" MemoryService.default_limit
       (after Memory [MemoryService.Initialize])
     = (Return [], {| MemoryService.initialized := true |}, []).
Proof.
  assert (Hin : In MemoryService.Initialize [MemoryService.Initialize])
    by (left; reflexivity).
  split; [exact Hin |].
  exact (get_conversations_is_empty _ "u1" MemoryService.default_limit Hin).
Defined.

(** C9, as the code has it.  After [initialize] has been awaited on a
    memory object, [save_preferences] returns nothing ([None]) and
    leaves the object, that is its [initialized] flag, exactly as it
    was, whatever [user_id] and [preferences] are.  It has one effect
    that can be observed: it hands the logger one record, ["Saved
    preferences for user "] followed by [user_id]; [preferences] is not
    looked at. *)
Theorem save_preferences_logs_one_line
  (calls : list MemoryService.call) (user_id : string) (preferences : Dict) :
  In MemoryService.Initialize calls ->
  let s := after Memory calls in
  MemoryService.save_preferences user_id preferences s
  = (Return tt, s, [INFO ("Saved preferences for user " ++ user_id)])
  /\ invoke Memory (MemoryService.SavePreferences user_id preferences) s
     = (Return PyNone, s, [INFO ("Saved preferences for user " ++ user_id)]).
Proof.
  intros Hin s. subst s.
  rewrite (ServiceFacts.after_initialize_memory calls Hin). split; reflexivity.
Qed.

Lemma save_preferences_logs_one_line_witness :
  In MemoryService.Initialize [MemoryService.Initialize]
  /\ MemoryService.save_preferences "u1" [("theme", PyStr "dark")]
       (after Memory [MemoryService.Initialize])
     = (Return tt, after Memory [MemoryService.Initialize],
        [INFO "Saved preferences for user u1"]).
Proof.
  assert (Hin : In MemoryService.Initialize [MemoryService.Initialize])
    by (left; reflexivity).
  split; [exact Hin |].
  exact (proj1 (save_preferences_logs_one_line _ "u1" [("theme", PyStr "dark")] Hin)).
Defined.

(** C9 as it was claimed fails: [save_preferences] has an effect that
    can be observed.  On an initialized object the call logs a record,
    and the record tells the [user_id] it was given. *)
Lemma save_preferences_no_effect_counterexample :
  logged (MemoryService.save_preferences "u1" [] (after Memory [MemoryService.Initialize]))
  = [INFO "Saved preferences for user u1"]
  /\ logged (MemoryService.save_preferences "u1" [] (after Memory [MemoryService.Initialize]))
     <> []
  /\ logged (MemoryService.save_preferences "u1" [] (after Memory [MemoryService.Initialize]))
     <> logged (MemoryService.save_preferences "u2" []
                  (after Memory [MemoryService.Initialize])).
Proof. repeat split; discriminate. Qed.

(** ** The payment service once initialized *)

(** C3.  After [initialize] has been awaited on a payment object,
    [process_payment] returns, whatever the payload, the same dictionary:
    its ["success"] is [True] and its ["transaction_id"] the constant
    ["txn_placeholder"]. *)
Theorem process_payment_always_succeeds
  (calls : list PaymentService.call) (payment_data : Dict) :
  In PaymentService.Initialize calls ->
  let s := after Payment calls in
  exists receipt : Dict,
    PaymentService.process_payment payment_data s = (Return receipt, s, [])
    /\ getitem receipt "success" = Some (PyBool true)
    /\ getitem receipt "transaction_id" = Some (PyStr "txn_placeholder")
    /\ forall payment_data',
         result (PaymentService.process_payment payment_data' s) = Return receipt.
Proof.
  intros Hin s. subst s.
  rewrite (ServiceFacts.after_initialize_payment calls Hin).
  eexists. split; [reflexivity |]. repeat split.
Qed.

Lemma process_payment_always_succeeds_witness :
  In PaymentService.Initialize [PaymentService.Initialize]
  /\ exists receipt : Dict,
       PaymentService.process_payment [("amount", PyInt 5)]
         (after Payment [PaymentService.Initialize])
       = (Return receipt, after Payment [PaymentService.Initialize], [])
       /\ getitem receipt "success" = Some (PyBool true).
Proof.
  assert (Hin : In PaymentService.Initialize [PaymentService.Initialize])
    by (left; reflexivity).
  split; [exact Hin |].
  destruct (process_payment_always_succeeds _ [("amount", PyInt 5)] Hin)
    as (receipt & Hrun & Hok & _).
  exists receipt. split; [exact Hrun | exact Hok].
Defined.

(** C6.  After [initialize] has been awaited on a payment object,
    [get_usage_stats] returns for every [user_id] the same record: usage
    ["unlimited"], tier ["free"], 0 requests made, ["unlimited"] requests
    remaining. *)
Theorem get_usage_stats_is_constant
  (calls : list PaymentService.call) (user_id : string) :
  In PaymentService.Initialize calls ->
  let s := after Payment calls in
  PaymentService.get_usage_stats user_id s
  = (Return [ ("usage", PyStr "unlimited");
              ("tier", PyStr "free");
              ("requests_made", PyInt 0);
              ("requests_remaining", PyStr "unlimited") ],
     s, []).
Proof.
  intros Hin s. subst s.
  rewrite (ServiceFacts.after_initialize_payment calls Hin). reflexivity.
Qed.

Lemma get_usage_stats_is_constant_witness :
  In PaymentService.Initialize [PaymentService.GetStatus; PaymentService.Initialize]
  /\ result (PaymentService.get_usage_stats "u1"
               (after Payment [PaymentService.GetStatus; PaymentService.Initialize]))
     = result (PaymentService.get_usage_stats "someone else"
                 (after Payment [PaymentService.GetStatus; PaymentService.Initialize])).
Proof.
  assert (Hin : In PaymentService.Initialize
                  [PaymentService.GetStatus; PaymentService.Initialize])
    by (right; left; reflexivity).
  split; [exact Hin |].
  rewrite (get_usage_stats_is_constant _ "u1" Hin).
  rewrite (get_usage_stats_is_constant _ "someone else" Hin).
  reflexivity.
Defined.

(** ** Status and lifecycle, for both services *)

(** C4.  For either service and in any state reached by calls on a new
    object, initialized or not, [get_status] returns: the report with the
    three keys ["available"], ["type"] and the service's backend key,
    whose values are the [initialized] flag and the constants
    ["placeholder"] and ["none"]; it logs nothing and leaves the object
    as it was.  When [initialize] is among the calls made, ["available"]
    is [True]. *)
Theorem get_status_reports_flag (S : service) (calls : list (call S)) :
  let s := after S calls in
  get_status S s
  = (Return [ ("available", PyBool (initialized S s));
              ("type", PyStr "placeholder");
              (backend_key S, PyStr "none") ],
     s, [])
  /\ (In (Initialize S) calls ->
      exists report,
        result (get_status S s) = Return report
        /\ getitem report "available" = Some (PyBool true)).
Proof.
  intros s.
  assert (Hrun : get_status S s
                 = (Return [ ("available", PyBool (initialized S s));
                             ("type", PyStr "placeholder");
                             (backend_key S, PyStr "none") ],
                    s, []))
    by (destruct S; reflexivity).
  split; [exact Hrun |].
  intros Hin. rewrite Hrun. eexists. split; [reflexivity |].
  subst s. cbn. rewrite (ServiceFacts.after_initialize S calls Hin). reflexivity.
Qed.

Lemma get_status_reports_flag_witness :
  In (Initialize Payment) [PaymentService.Initialize]
  /\ exists report,
       result (get_status Payment (after Payment [PaymentService.Initialize])) = Return report
       /\ getitem report "available" = Some (PyBool true).
Proof.
  assert (Hin : In (Initialize Payment) [PaymentService.Initialize])
    by (left; reflexivity).
  split; [exact Hin |].
  exact (proj2 (get_status_reports_flag Payment [PaymentService.Initialize]) Hin).
Defined.

(** C7.  For either service the state is the one boolean [initialized]:
    two states with the same flag are the same state.  [__init__] leaves
    it false, [initialize] leaves it true, no call but [initialize]
    changes it, no call takes it from true to false, and so it is true
    after [initialize] followed by any series of calls, from any state;
    along any series of calls its value changes at most once. *)
Theorem initialized_is_monotonic (S : service) :
  (forall s s' : state S, initialized S s = initialized S s' -> s = s')
  /\ initialized S (__init__ S) = false
  /\ (forall s, initialized S (final (initialize S s)) = true)
  /\ (forall c s, initialized S (final (invoke S c s)) <> initialized S s ->
                  c = Initialize S /\ initialized S s = false)
  /\ (forall c s, initialized S s = true -> initialized S (final (invoke S c s)) = true)
  /\ (forall calls s,
        initialized S (run_calls (invoke S) calls (final (initialize S s))) = true)
  /\ (forall calls s, changes (invoke S) (initialized S) calls s <= 1).
Proof.
  split; [apply ServiceFacts.state_ext |].
  split; [destruct S; reflexivity |].
  split; [intros s; apply ServiceFacts.initialize_run |].
  split; [| split; [| split]].
  - intros c s Hchg.
    destruct (initialized S s) eqn:Hs.
    + exfalso. apply Hchg. apply ServiceFacts.invoke_kept, Hs.
    + split; [| reflexivity].
      destruct S; destruct c; try reflexivity; exfalso; apply Hchg;
        rewrite <- Hs; f_equal;
        first [ apply MemoryFacts.memory_invoke_frame
              | apply PaymentFacts.payment_invoke_frame ];
        discriminate.
  - apply ServiceFacts.invoke_kept.
  - intros calls s.
    apply (run_calls_keeps _ _ (invoke S) (initialized S)).
    + apply ServiceFacts.invoke_kept.
    + apply ServiceFacts.initialize_run.
  - intros calls s.
    apply (changes_at_most_once _ _ (invoke S) (initialized S)).
    apply ServiceFacts.invoke_kept.
Qed.

Lemma initialized_is_monotonic_witness :
  MemoryService.initialized
    (final (invoke Memory (MemoryService.SaveConversation [("a", PyInt 1)])
              {| MemoryService.initialized := true |}))
  = true.
Proof.
  destruct (initialized_is_monotonic Memory) as (_ & _ & _ & _ & Hkept & _ & _).
  exact (Hkept (MemoryService.SaveConversation [("a", PyInt 1)])
           {| MemoryService.initialized := true |} eq_refl).
Defined.

(** C8.  For either service and from any state, [initialize] returns
    without raising, and awaiting it twice in a row leaves the object in
    the state one call leaves it in. *)
Theorem initialize_is_idempotent (S : service) (s : state S) :
  result (initialize S s) = Return tt
  /\ final (initialize S (final (initialize S s))) = final (initialize S s)
  /\ result (initialize S (final (initialize S s))) = Return tt.
Proof. destruct S; repeat split. Qed.

(** * Further properties of the two classes *)

Import Trace.

(** ** The text of a payload and the number in the identifier *)

(** X1.  On an initialized memory object two payloads whose [str]
    returns are given the same identifier exactly when their texts have
    the same length: the identifier tells the length of [str(payload)]
    and nothing else. *)
Theorem save_conversation_same_id_iff_same_length
  (calls : list MemoryService.call) (p1 p2 : Dict) (t1 t2 : string) :
  In MemoryService.Initialize calls ->
  str p1 = Return t1 ->
  str p2 = Return t2 ->
  let s := after Memory calls in
  result (MemoryService.save_conversation p1 s)
  = result (MemoryService.save_conversation p2 s)
  <-> len t1 = len t2.
Proof.
  intros Hin H1 H2 s. subst s.
  rewrite (ServiceFacts.after_initialize_memory calls Hin).
  rewrite !MemoryFacts.memory_save_conversation_run, H1, H2.
  cbn [MemoryService.initialized result fst].
  split.
  - intros H. injection H as H.
    exact (PyFacts.str_nat_inj _ _ H).
  - intros H. rewrite H. reflexivity.
Qed.

Lemma save_conversation_same_id_iff_same_length_witness :
  In MemoryService.Initialize [MemoryService.Initialize]
  /\ result (MemoryService.save_conversation [("a", PyInt 1)]
               (after Memory [MemoryService.Initialize]))
     = result (MemoryService.save_conversation [("b", PyObj "2")]
                 (after Memory [MemoryService.Initialize])).
Proof.
  assert (Hin : In MemoryService.Initialize [MemoryService.Initialize])
    by (left; reflexivity).
  split; [exact Hin |].
  apply (proj2 (save_conversation_same_id_iff_same_length
                  _ [("a", PyInt 1)] [("b", PyObj "2")] "{'a': 1}" "{'b': 2}"
                  Hin eq_refl eq_refl)).
  reflexivity.
Defined.

(** X2.  The order of the keys of a payload does not matter to
    [save_conversation]: on an initialized memory object a payload whose
    [str] returns and any reordering of its items are given the same
    identifier. *)
Theorem save_conversation_ignores_key_order
  (calls : list MemoryService.call) (p1 p2 : Dict) (t1 : string) :
  In MemoryService.Initialize calls ->
  Permutation p1 p2 ->
  str p1 = Return t1 ->
  let s := after Memory calls in
  result (MemoryService.save_conversation p1 s)
  = result (MemoryService.save_conversation p2 s).
Proof.
  intros Hin Hperm H1 s.
  destruct (PyFacts.str_return p1 t1 H1) as (parts1 & Hparts1 & Ht1).
  destruct (PyFacts.traverse_permutation _ p1 p2 Hperm parts1 Hparts1)
    as (parts2 & Hparts2 & Hpp).
  pose proof (PyFacts.str_of_parts p2 parts2 Hparts2) as H2.
  apply (proj2 (save_conversation_same_id_iff_same_length calls p1 p2 _ _ Hin H1 H2)).
  rewrite Ht1, !PyFacts.len_braces.
  rewrite (Permutation_length Hpp).
  rewrite (Permutation_list_sum (Permutation_map len Hpp)).
  reflexivity.
Qed.

Lemma save_conversation_ignores_key_order_witness :
  result (MemoryService.save_conversation [("user", PyStr "u1"); ("n", PyInt 12)]
            (after Memory [MemoryService.Initialize]))
  = result (MemoryService.save_conversation [("n", PyInt 12); ("user", PyStr "u1")]
              (after Memory [MemoryService.Initialize])).
Proof.
  apply (save_conversation_ignores_key_order [MemoryService.Initialize]
           _ _ "{'user': 'u1', 'n': 12}").
  - left. reflexivity.
  - apply perm_swap.
  - reflexivity.
Defined.

(** X3.  The number in the identifier counts at least the two braces of
    the payload's text: on an initialized memory object an identifier
    that [save_conversation] returns is ["conv_"] followed by a number
    of 2 or more, never ["conv_0"] nor ["conv_1"], and the empty payload
    gets ["conv_2"]. *)
Theorem save_conversation_number_at_least_two
  (calls : list MemoryService.call) (payload : Dict) :
  In MemoryService.Initialize calls ->
  let s := after Memory calls in
  (forall id, result (MemoryService.save_conversation payload s) = Return id ->
     exists n, 2 <= n /\ id = "conv_" ++ str_nat n)
  /\ result (MemoryService.save_conversation payload s) <> Return "conv_0"
  /\ result (MemoryService.save_conversation payload s) <> Return "conv_1"
  /\ result (MemoryService.save_conversation [] s) = Return "conv_2".
Proof.
  intros Hin s. subst s.
  rewrite (ServiceFacts.after_initialize_memory calls Hin).
  assert (Hid : forall id,
             result (MemoryService.save_conversation payload
                       {| MemoryService.initialized := true |}) = Return id ->
             exists n, 2 <= n /\ id = "conv_" ++ str_nat n).
  { intros id. rewrite MemoryFacts.memory_save_conversation_run.
    cbn [MemoryService.initialized].
    destruct (str payload) as [text | e] eqn:Hstr; intros H; [| discriminate H].
    injection H as <-. exists (len text). split; [| reflexivity].
    destruct (PyFacts.str_return payload text Hstr) as (parts & _ & ->).
    rewrite PyFacts.len_braces. lia. }
  split; [exact Hid |].
  split; [| split; [| reflexivity]].
  - intros H. destruct (Hid _ H) as (n & Hn & Heq).
    apply (PyFacts.conv_id_inj 0 n) in Heq. lia.
  - intros H. destruct (Hid _ H) as (n & Hn & Heq).
    apply (PyFacts.conv_id_inj 1 n) in Heq. lia.
Qed.

Lemma save_conversation_number_at_least_two_witness :
  result (MemoryService.save_conversation [("a", PyInt 1)]
            (after Memory [MemoryService.GetStatus; MemoryService.Initialize]))
  <> Return "conv_0".
Proof.
  apply (save_conversation_number_at_least_two
           [MemoryService.GetStatus; MemoryService.Initialize] [("a", PyInt 1)]).
  right. left. reflexivity.
Defined.

(** ** What the status and the state tell about the calls made *)

Lemma is_initialize_spec S (c : call S) :
  is_initialize S c = true <-> c = Initialize S.
Proof.
  destruct S; destruct c; simpl; split; intros H;
    first [reflexivity | discriminate H].
Qed.

Lemma initialize_called_or_not S (calls : list (call S)) :
  In (Initialize S) calls \/ ~ In (Initialize S) calls.
Proof.
  induction calls as [| c calls [IH | IH]].
  - right. intros [].
  - left. right. exact IH.
  - destruct (is_initialize S c) eqn:Hc.
    + left. left. now apply is_initialize_spec.
    + right. intros [Heq | Hin]; [| exact (IH Hin)].
      apply is_initialize_spec in Heq. congruence.
Qed.

Lemma initialized_after_iff S (calls : list (call S)) :
  initialized S (after S calls) = true <-> In (Initialize S) calls.
Proof.
  split.
  - intros Hready.
    destruct (initialize_called_or_not S calls) as [Hin | Hnot]; [exact Hin |].
    rewrite (ServiceFacts.after_no_initialize S calls Hnot) in Hready.
    discriminate Hready.
  - apply ServiceFacts.after_initialize.
Qed.

(** X4.  For either service, [get_status] on an object that went through
    any series of calls reports ["available"] as [True] exactly when
    [initialize] is one of these calls, and as [False] otherwise. *)
Theorem status_available_iff_initialize_called (S : service) (calls : list (call S)) :
  exists report,
    result (get_status S (after S calls)) = Return report
    /\ (getitem report "available" = Some (PyBool true) <-> In (Initialize S) calls)
    /\ (getitem report "available" = Some (PyBool false) <-> ~ In (Initialize S) calls).
Proof.
  exists [ ("available", PyBool (initialized S (after S calls)));
           ("type", PyStr "placeholder");
           (backend_key S, PyStr "none") ].
  split; [destruct S; reflexivity |].
  cbn [getitem String.eqb Ascii.eqb Bool.eqb].
  pose proof (initialized_after_iff S calls) as Hiff.
  destruct (initialized S (after S calls)); split; split; intros H;
    try discriminate H; try reflexivity.
  - now apply Hiff.
  - exfalso. apply H. now apply Hiff.
  - apply Hiff in H. discriminate H.
  - intros Hin. apply Hiff in Hin. discriminate Hin.
Qed.

Lemma status_available_iff_initialize_called_witness :
  exists report,
    result (get_status Memory
              (after Memory [MemoryService.SaveConversation []; MemoryService.GetStatus]))
    = Return report
    /\ getitem report "available" = Some (PyBool false).
Proof.
  destruct (status_available_iff_initialize_called Memory
              [MemoryService.SaveConversation []; MemoryService.GetStatus])
    as (report & Hrun & _ & Hfalse).
  exists report. split; [exact Hrun |].
  apply Hfalse. simpl. intros [H | [H | []]]; discriminate H.
Defined.

(** X5.  For either service, the object a series of calls leaves behind
    depends only on whether [initialize] is among them: two series that
    agree on this, whatever else they contain and in whatever order,
    leave the same object. *)
Theorem state_depends_only_on_initialize
  (S : service) (calls1 calls2 : list (call S)) :
  (In (Initialize S) calls1 <-> In (Initialize S) calls2) ->
  after S calls1 = after S calls2.
Proof.
  intros Hsame. apply ServiceFacts.state_ext.
  destruct (initialize_called_or_not S calls1) as [Hin | Hnot].
  - rewrite (ServiceFacts.after_initialize S calls1 Hin).
    rewrite (ServiceFacts.after_initialize S calls2 (proj1 Hsame Hin)).
    reflexivity.
  - rewrite (ServiceFacts.after_no_initialize S calls1 Hnot).
    rewrite (ServiceFacts.after_no_initialize S calls2); [reflexivity |].
    intros Hin. apply Hnot, Hsame, Hin.
Qed.

Lemma state_depends_only_on_initialize_witness :
  after Payment [PaymentService.Initialize; PaymentService.ProcessPayment []]
  = after Payment [PaymentService.GetUsageStats "u1"; PaymentService.Initialize;
                   PaymentService.Initialize].
Proof.
  apply state_depends_only_on_initialize. split; intros _.
  - right. left. reflexivity.
  - left. reflexivity.
Defined.

(** ** What the calls log *)

Lemma run_log_cons {St C A} (f : C -> M St A) c calls s :
  run_log f (c :: calls) s
  = (logged (f c s) ++ run_log f calls (final (f c s)))%list.
Proof. reflexivity. Qed.

Lemma call_before_initialize_is_silent S (c : call S) (s : state S) :
  c <> Initialize S -> initialized S s = false ->
  logged (invoke S c s) = [] /\ final (invoke S c s) = s.
Proof.
  intros Hc Hs. split; [| apply ServiceFacts.invoke_frame, Hc].
  destruct S.
  - rewrite (MemoryFacts.memory_new_state s Hs).
    destruct c; try reflexivity; now destruct Hc.
  - rewrite (PaymentFacts.payment_new_state s Hs).
    destruct c; try reflexivity; now destruct Hc.
Qed.

Lemma initialized_lines_of_call S (c : call S) (s : state S) :
  length (filter (has_message (initialized_line S)) (logged (invoke S c s)))
  = if is_initialize S c then 1 else 0.
Proof.
  destruct S; destruct c;
    try (destruct s as [[|]]; reflexivity).
  cbn [invoke]. rewrite MemoryFacts.memory_invoke_save.
  destruct (MemoryService.initialized s); [| reflexivity].
  destruct (str conversation_data); reflexivity.
Qed.

Lemma call_logs_at_most_once S (c : call S) (s : state S) :
  length (logged (invoke S c s)) <= 1.
Proof.
  destruct S; destruct c;
    try (destruct s as [[|]]; simpl; lia).
  cbn [invoke]. rewrite MemoryFacts.memory_invoke_save.
  destruct (MemoryService.initialized s); [| simpl; lia].
  destruct (str conversation_data); simpl; lia.
Qed.

(** X6.  For either service, as long as [initialize] has not been
    awaited nothing reaches the logger: a series of calls without it,
    made on a new object, logs no record at all. *)
Theorem nothing_logged_before_initialize (S : service) (calls : list (call S)) :
  ~ In (Initialize S) calls ->
  run_log (invoke S) calls (__init__ S) = [].
Proof.
  assert (Hgen : forall s, initialized S s = false ->
                           ~ In (Initialize S) calls ->
                           run_log (invoke S) calls s = []).
  { induction calls as [| c calls IH]; intros s Hs Hnot.
    - reflexivity.
    - assert (Hc : c <> Initialize S)
        by (intros ->; apply Hnot; left; reflexivity).
      destruct (call_before_initialize_is_silent S c s Hc Hs) as [Hlog Hfin].
      rewrite run_log_cons, Hlog, Hfin. simpl.
      apply IH; [exact Hs |]. intros Hin. apply Hnot. right. exact Hin. }
  apply Hgen. destruct S; reflexivity.
Qed.

Lemma nothing_logged_before_initialize_witness :
  run_log (invoke Memory)
    [MemoryService.SavePreferences "u1" []; MemoryService.GetStatus;
     MemoryService.SaveConversation [("a", PyInt 1)]]
    MemoryService.__init__
  = [].
Proof.
  apply (nothing_logged_before_initialize Memory).
  simpl. intros [H | [H | [H | []]]]; discriminate H.
Defined.

(** X7.  [initialize] is not guarded against being awaited again: for
    either service, from any state, the log of a series of calls holds
    the service's "initialized (placeholder)" line once per [initialize]
    call of the series, and no other call logs that line. *)
Theorem initialize_logs_on_every_call
  (S : service) (calls : list (call S)) (s : state S) :
  length (filter (has_message (initialized_line S)) (run_log (invoke S) calls s))
  = length (filter (is_initialize S) calls).
Proof.
  revert s. induction calls as [| c calls IH]; intros s.
  - reflexivity.
  - rewrite run_log_cons, filter_app, length_app, IH, initialized_lines_of_call.
    simpl. destruct (is_initialize S c); reflexivity.
Qed.

(** X8.  For either service, no call logs more than one record: the log
    of a series of calls, from any state, is at most as long as the
    series. *)
Theorem log_no_longer_than_calls
  (S : service) (calls : list (call S)) (s : state S) :
  length (run_log (invoke S) calls s) <= length calls.
Proof.
  revert s. induction calls as [| c calls IH]; intros s.
  - simpl. lia.
  - rewrite run_log_cons, length_app. simpl.
    pose proof (call_logs_at_most_once S c s).
    pose proof (IH (final (invoke S c s))). lia.
Qed.

(** X9.  Whenever [save_conversation] returns an identifier, in whatever
    state, it has logged exactly one record, and that record names the
    identifier it returns. *)
Theorem save_conversation_logs_returned_id
  (s : MemoryService.state) (payload : Dict) (id : string) :
  result (MemoryService.save_conversation payload s) = Return id ->
  logged (MemoryService.save_conversation payload s)
  = [INFO ("Saved conversation " ++ id)].
Proof.
  rewrite MemoryFacts.memory_save_conversation_run.
  destruct (MemoryService.initialized s); [| intros H; discriminate H].
  destruct (str payload); intros H; [| discriminate H].
  injection H as <-. reflexivity.
Qed.

Lemma save_conversation_logs_returned_id_witness :
  logged (MemoryService.save_conversation [("a", PyInt 1)]
            {| MemoryService.initialized := true |})
  = [INFO "Saved conversation conv_8"].
Proof.
  exact (save_conversation_logs_returned_id
           {| MemoryService.initialized := true |} [("a", PyInt 1)] "conv_8" eq_refl).
Defined.

(** ** The guard is exact *)

Lemma ready_call_returns S (c : call S) (s : state S) :
  initialized S s = true -> arguments_accepted S c = true ->
  exists v, result (invoke S c s) = Return v.
Proof.
  intros Hs Hc. destruct S.
  - rewrite (MemoryFacts.memory_ready_state s Hs).
    destruct c; try (eexists; reflexivity).
    cbn [invoke]. rewrite MemoryFacts.memory_invoke_save.
    cbn [MemoryService.initialized]. cbn [arguments_accepted] in Hc.
    destruct (str conversation_data); [eexists; reflexivity | discriminate Hc].
  - rewrite (PaymentFacts.payment_ready_state s Hs).
    destruct c; eexists; reflexivity.
Qed.

Lemma returned_call_accepted S (c : call S) (s : state S) v :
  result (invoke S c s) = Return v -> arguments_accepted S c = true.
Proof.
  destruct S; [| reflexivity].
  destruct c; try reflexivity.
  cbn [invoke arguments_accepted]. rewrite MemoryFacts.memory_invoke_save.
  destruct (MemoryService.initialized s); [| intros H; discriminate H].
  destruct (str conversation_data); [reflexivity | intros H; discriminate H].
Qed.

(** X10.  For either service and each of its guarded coroutines, a call
    made after any series of calls on a new object raises the "not
    initialized" error exactly when [initialize] is not among those
    calls.  It returns a value exactly when [initialize] is among them
    and the built-in calls it makes on its arguments return: that is
    [str] on the payload for [save_conversation], and nothing for the
    other four, which return whenever [initialize] was called. *)
Theorem guarded_call_returns_iff_initialized
  (S : service) (calls : list (call S)) (c : call S) :
  data_bearing S c = true ->
  (result (invoke S c (after S calls)) = Raise (NotInitialized S)
   <-> ~ In (Initialize S) calls)
  /\ ((exists v, result (invoke S c (after S calls)) = Return v)
      <-> In (Initialize S) calls /\ arguments_accepted S c = true).
Proof.
  intros Hc. split; split.
  - intros Hraise Hin.
    destruct (ServiceFacts.invoke_raise_guard S c _ Hraise) as [_ Hs].
    rewrite (ServiceFacts.after_initialize S calls Hin) in Hs. discriminate Hs.
  - intros Hnot.
    rewrite (ServiceFacts.invoke_guard S c _ Hc
               (ServiceFacts.after_no_initialize S calls Hnot)).
    reflexivity.
  - intros [v Hv]. split; [| exact (returned_call_accepted S c _ v Hv)].
    destruct (initialize_called_or_not S calls) as [Hin | Hnot]; [exact Hin |].
    rewrite (ServiceFacts.invoke_guard S c _ Hc
               (ServiceFacts.after_no_initialize S calls Hnot)) in Hv.
    discriminate Hv.
  - intros [Hin Hacc].
    apply ready_call_returns; [apply ServiceFacts.after_initialize, Hin | exact Hacc].
Qed.

Lemma guarded_call_returns_iff_initialized_witness :
  (exists v,
     result (invoke Payment (PaymentService.GetUsageStats "u1")
               (after Payment [PaymentService.GetUsageStats "u1"; PaymentService.Initialize]))
     = Return v)
  /\ exists v,
       result (invoke Memory (MemoryService.SaveConversation [("a", PyInt 1)])
                 (after Memory [MemoryService.Initialize]))
       = Return v.
Proof.
  split.
  - apply (proj2 (guarded_call_returns_iff_initialized Payment
                    [PaymentService.GetUsageStats "u1"; PaymentService.Initialize]
                    (PaymentService.GetUsageStats "u1") eq_refl)).
    split; [right; left; reflexivity | reflexivity].
  - apply (proj2 (guarded_call_returns_iff_initialized Memory
                    [MemoryService.Initialize]
                    (MemoryService.SaveConversation [("a", PyInt 1)]) eq_refl)).
    split; [left; reflexivity | reflexivity].
Defined.
